(** * Permit Agent: the [/ask] endpoint of [main.py]

    A shallow embedding of the FastAPI service of [src/main.py]: the module
    level start-up code, the three route handlers and the part of the Python
    run time they rely on (string trimming, attribute and index lookup on the
    object returned by the OpenAI SDK, stringification, exceptions and
    logging).  Handlers are written in a small error-and-trace monad, so that
    what a request returns and which outbound calls it makes can both be
    stated. *)

From Stdlib Require Import ZArith String Ascii List Floats Lia.
From stdpp Require Import gmap strings list.

Set Warnings "-register-all,-inexact-float".

Local Open Scope Z_scope.

(** ** Python strings

    A Python [str] is modelled as a [string] whose characters are the code
    points below 256. *)

Module PyStr.

(** [str.isspace] on one code point below 256: TAB, LF, VT, FF, CR
    (9 to 13), FS, GS, RS, US (28 to 31), SPACE (32), NEL (133) and
    NBSP (160). *)
Definition isspace (c : ascii) : bool :=
  let n := nat_of_ascii c in
  ((9 <=? n)%nat && (n <=? 13)%nat)
  || ((28 <=? n)%nat && (n <=? 32)%nat)
  || (n =? 133)%nat || (n =? 160)%nat.

(** [s.lstrip()] *)
Fixpoint lstrip (s : string) : string :=
  match s with
  | EmptyString => EmptyString
  | String c s' => if isspace c then lstrip s' else s
  end.

(** [s.rstrip()] *)
Fixpoint rstrip (s : string) : string :=
  match s with
  | EmptyString => EmptyString
  | String c s' =>
      match rstrip s' with
      | EmptyString => if isspace c then EmptyString else String c EmptyString
      | r => String c r
      end
  end.

(** [s.strip()] *)
Definition strip (s : string) : string := rstrip (lstrip s).

(** First and last character of a string, when it has one. *)
Definition head (s : string) : option ascii :=
  match s with
  | EmptyString => None
  | String c _ => Some c
  end.

Fixpoint last (s : string) : option ascii :=
  match s with
  | EmptyString => None
  | String c EmptyString => Some c
  | String _ s' => last s'
  end.

(** A string is trimmed when neither end is a whitespace character. *)
Definition trimmed (s : string) : Prop :=
  (forall c, head s = Some c -> isspace c = false) /\
  (forall c, last s = Some c -> isspace c = false).

End PyStr.

(** ** Results and exceptions *)

Inductive result (E A : Type) : Type :=
| Ok (a : A)
| Raise (e : E).
Arguments Ok {E A} a.
Arguments Raise {E A} e.

(** The built-in errors that attribute access, subscripting and calling can
    raise.  Only their kind is kept: the one handler that catches them
    discards the exception object. *)
Inductive builtin_error : Type :=
| AttributeError
| IndexError
| TypeError.

(** An exception escaping the SDK call, an instance of [Exception], as the
    handler observes it: [type(e).__name__] and [str(e)]. *)
Record py_exception : Type := {
  type_name : string;
  message : string
}.

(** [fastapi.HTTPException(status_code=..., detail=...)] *)
Record HTTPException : Type := {
  status_code : Z;
  detail : string
}.

(** ** Python values returned by the SDK

    The handler observes the completion object through attribute access,
    subscripting, the call of [.strip()] and [str()].  A value is therefore
    [None], a [str], a sequence with its items, or an instance with its
    attributes; sequences and instances carry the text [str()] gives for
    them. *)
Inductive pyval : Type :=
| VNone
| VStr (s : string)
| VSeq (rendered : string) (items : list pyval)
| VObj (rendered : string) (attrs : gmap string pyval).

Module Py.

(** [v.name], for the names the handler asks for ([choices], [message],
    [content]): no built-in type has them, an instance has those of its
    attributes. *)
Definition getattr (v : pyval) (name : string) : result builtin_error pyval :=
  match v with
  | VObj _ attrs =>
      match attrs !! name with
      | Some x => Ok x
      | None => Raise AttributeError
      end
  | _ => Raise AttributeError
  end.

(** [v[i]] for a non-negative index [i] *)
Definition getitem (v : pyval) (i : nat) : result builtin_error pyval :=
  match v with
  | VSeq _ items =>
      match items !! i with
      | Some x => Ok x
      | None => Raise IndexError
      end
  | VStr s =>
      match String.get i s with
      | Some c => Ok (VStr (String c EmptyString))
      | None => Raise IndexError
      end
  | _ => Raise TypeError
  end.

(** [v.strip()]: the method of [str]; on an instance the attribute, if it
    exists, is a plain value and calling it is a [TypeError]. *)
Definition call_strip (v : pyval) : result builtin_error string :=
  match v with
  | VStr s => Ok (PyStr.strip s)
  | VObj _ attrs =>
      match attrs !! "strip" with
      | Some _ => Raise TypeError
      | None => Raise AttributeError
      end
  | _ => Raise AttributeError
  end.

(** [str(v)]; it raises neither on [None], on a [str], on a list nor on the
    SDK's response models. *)
Definition str (v : pyval) : string :=
  match v with
  | VNone => "None"
  | VStr s => s
  | VSeq rendered _ => rendered
  | VObj rendered _ => rendered
  end.

End Py.

(** ** The outbound call and the trace of a request *)

(** One entry of the [messages] list: [{"role": ..., "content": ...}]. *)
Record ChatMessage : Type := {
  role : string;
  content : string
}.

(** The keyword arguments of [client.chat.completions.create]. *)
Record CreateArgs : Type := {
  model : string;
  messages : list ChatMessage;
  temperature : float;
  max_tokens : Z
}.

(** [OpenAI(api_key=...)] *)
Record OpenAI : Type := {
  api_key : string
}.

(** What a handler does besides returning: it logs, and it calls the
    completion API. *)
Inductive event : Type :=
| LogError (msg : string)
| LogException (msg : string)
| ChatCompletionsCreate (cl : OpenAI) (args : CreateArgs).

(** The behaviour of the remote API at the time of one request: the call
    returns an object or raises. *)
Definition upstream : Type := OpenAI -> CreateArgs -> result py_exception pyval.

(** The outbound calls recorded in a trace, in order. *)
Fixpoint outbound_calls (tr : list event) : list CreateArgs :=
  match tr with
  | [] => []
  | ChatCompletionsCreate _ args :: tr' => args :: outbound_calls tr'
  | _ :: tr' => outbound_calls tr'
  end.

(** ** The handler monad

    A computation that may raise an [E], run against the remote API, with the
    events it performed so far. *)
Definition M (E A : Type) : Type := upstream -> list event * result E A.

Module HandlerMonad.

Definition ret {E A} (a : A) : M E A := fun _ => ([], Ok a).

Definition raise {E A} (e : E) : M E A := fun _ => ([], Raise e).

Definition bind {E A B} (m : M E A) (k : A -> M E B) : M E B :=
  fun up =>
    match m up with
    | (tr, Ok a) => let '(tr', r) := k a up in (tr ++ tr', r)
    | (tr, Raise e) => (tr, Raise e)
    end.

(** [try: body  except Exception as e: handler e] *)
Definition try_except {E E' A} (body : M E A) (handler : E -> M E' A) : M E' A :=
  fun up =>
    match body up with
    | (tr, Ok a) => (tr, Ok a)
    | (tr, Raise e) => let '(tr', r) := handler e up in (tr ++ tr', r)
    end.

(** A pure computation that may raise. *)
Definition lift {E A} (r : result E A) : M E A := fun _ => ([], r).

Definition logger_error {E} (msg : string) : M E unit :=
  fun _ => ([LogError msg], Ok tt).

Definition logger_exception {E} (msg : string) : M E unit :=
  fun _ => ([LogException msg], Ok tt).

Definition chat_completions_create (cl : OpenAI) (args : CreateArgs)
  : M py_exception pyval :=
  fun up => ([ChatCompletionsCreate cl args], up cl args).

End HandlerMonad.

Import HandlerMonad.

Declare Scope handler_scope.
Delimit Scope handler_scope with handler.
Notation "x <- m ;; k" := (bind m (fun x => k))
  (at level 100, m at next level, right associativity) : handler_scope.
Notation "m ;; k" := (bind m (fun _ => k))
  (at level 100, right associativity) : handler_scope.

(** Sequencing of pure lookups that may raise. *)
Definition and_then {E A B} (r : result E A) (k : A -> result E B) : result E B :=
  match r with
  | Ok a => k a
  | Raise e => Raise e
  end.

(** ** JSON values, as request and response bodies *)

Inductive json : Type :=
| JNull
| JBool (b : bool)
| JInt (n : Z)
| JFloat (x : float)
| JString (s : string)
| JArray (xs : list json)
| JObject (fields : gmap string json).

(** The value under a key of a JSON object. *)
Definition json_field (v : json) (k : string) : option json :=
  match v with
  | JObject fields => fields !! k
  | _ => None
  end.

(** ** Module level: configuration read once at import *)

(** The module globals the handlers read. *)
Record process : Type := {
  OPENAI_API_KEY : option string;
  client : option OpenAI
}.

(** Start-up, lines 13 to 20: [os.getenv] gives [None] or a string; an empty
    string is falsy too.  The module logs and goes on without a client when
    the key is missing. *)
Definition module_init (getenv : option string) : list event * process :=
  match getenv with
  | Some (String c k) =>
      ([], {| OPENAI_API_KEY := getenv;
              client := Some {| api_key := String c k |} |})
  | _ =>
      ([LogError "OPENAI_API_KEY not set in environment. Set it in Render -> Environment."],
       {| OPENAI_API_KEY := getenv; client := None |})
  end.

(** ** [class PermitRequest(BaseModel)] *)

Record PermitRequest : Type := {
  question : string
}.

(** ** The [/ask] handler *)

Definition SYSTEM_PROMPT : string :=
  "You are a helpful permitting assistant. Answer clearly and concisely in plain text. "
  +:+ "If you're unsure, advise checking with the local building department.".

(** The prompt of lines 60 to 69. *)
Definition build_messages (req : PermitRequest) : list ChatMessage :=
  [ {| role := "system"; content := SYSTEM_PROMPT |};
    {| role := "user"; content := question req |} ].

(** The keyword arguments of lines 72 to 77. *)
Definition create_args (req : PermitRequest) : CreateArgs :=
  {| model := "gpt-4o-mini";
     messages := build_messages req;
     temperature := 0.2%float;
     max_tokens := 800 |}.

(** [completion.choices[0].message.content]: the first choice's text. *)
Definition first_choice_content (completion : pyval) : result builtin_error pyval :=
  and_then (Py.getattr completion "choices") (fun choices =>
  and_then (Py.getitem choices 0) (fun choice =>
  and_then (Py.getattr choice "message") (fun msg =>
  Py.getattr msg "content"))).

(** Line 82: [completion.choices[0].message.content.strip()]. *)
Definition extract_choice_text (completion : pyval) : result builtin_error string :=
  and_then (first_choice_content completion) Py.call_strip.

(** The handler, lines 50 to 94.  The assignment of the empty string to
    [content] on line 80 is overwritten on both paths and is left out. *)
Definition ask (p : process) (req : PermitRequest) : M HTTPException json :=
  match client p with
  | None =>
      (logger_error "OpenAI client not initialized because OPENAI_API_KEY is missing." ;;
       raise {| status_code := 500;
                detail := "Server misconfigured: OPENAI_API_KEY not set." |})%handler
  | Some cl =>
      try_except
        (completion <- chat_completions_create cl (create_args req) ;;
         answer <- try_except
                     (lift (extract_choice_text completion))
                     (fun _ =>
                        logger_exception "Couldn't extract choice text from OpenAI response." ;;
                        ret (Py.str completion)) ;;
         ret (JObject {[ "answer" := JString answer ]}))%handler
        (fun e =>
           logger_exception "Error while calling OpenAI API" ;;
           raise {| status_code := 500;
                    detail := "AI error: " +:+ type_name e +:+ ": " +:+ message e |})%handler
  end.

(** ** The other two handlers *)

Definition root : json :=
  JObject {[ "message" := JString
    ("Permit Agent service is running. Use /docs for interactive API docs or POST /ask with JSON {"
     +:+ String "034" ("question" +:+ String "034" (":" +:+ String "034" ("..." +:+ String "034" "}.")))) ]}.

Definition health : json := JObject {[ "ok" := JBool true ]}.

(** ** The front door: FastAPI's treatment of a request

    Two points of the framework depend on the installed pydantic and are left
    open: what validation against [str] does with a JSON value that is not a
    string (version 1 converts numbers, version 2 rejects them), and the
    content of the response for a body that fails validation. *)
Class Framework : Type := {
  str_of_non_string : json -> option string;
  validation_error_content : option json -> json
}.

Record http_response : Type := {
  status : Z;
  body : json
}.

Inductive http_request : Type :=
| GET_root
| GET_health
| POST_ask (payload : option json).

Section FrontDoor.
Context `{fw : Framework}.

(** Validation of one field of type [str]. *)
Definition validate_str (v : json) : option string :=
  match v with
  | JString s => Some s
  | _ => str_of_non_string v
  end.

(** Validation of the body against [PermitRequest]; [None] as a payload is a
    request without body.  Keys other than [question] are ignored. *)
Definition PermitRequest_validate (payload : option json) : option PermitRequest :=
  match payload with
  | Some (JObject fields) =>
      match fields !! "question" with
      | Some v =>
          match validate_str v with
          | Some s => Some {| question := s |}
          | None => None
          end
      | None => None
      end
  | _ => None
  end.

(** What FastAPI sends for a handler's outcome: the returned value with
    status 200, or the [HTTPException]'s status with its detail. *)
Definition respond (r : result HTTPException json) : http_response :=
  match r with
  | Ok v => {| status := 200; body := v |}
  | Raise e => {| status := status_code e;
                  body := JObject {[ "detail" := JString (detail e) ]} |}
  end.

(** [POST /ask]: the body is validated first; the handler runs only on a
    valid one. *)
Definition post_ask (p : process) (payload : option json) (up : upstream)
  : list event * http_response :=
  match PermitRequest_validate payload with
  | None => ([], {| status := 422; body := validation_error_content payload |})
  | Some req => let '(tr, r) := ask p req up in (tr, respond r)
  end.

(** One request served by the process: the globals afterwards, the trace and
    the response.  No handler assigns a global. *)
Definition app (p : process) (rq : http_request) (up : upstream)
  : process * (list event * http_response) :=
  match rq with
  | GET_root => (p, ([], respond (Ok root)))
  | GET_health => (p, ([], respond (Ok health)))
  | POST_ask payload => (p, post_ask p payload up)
  end.

(** One served request, with the globals before and after it. *)
Record served : Type := {
  globals_before : process;
  request : http_request;
  trace : list event;
  response : http_response;
  globals_after : process
}.

(** The life of a process after start-up: requests served one after the other,
    each against the remote API's behaviour at that time. *)
Fixpoint serve (p : process) (rqs : list (http_request * upstream))
  : process * list served :=
  match rqs with
  | [] => (p, [])
  | (rq, up) :: rqs' =>
      let '(p', (tr, resp)) := app p rq up in
      let '(p'', log) := serve p' rqs' in
      (p'', {| globals_before := p; request := rq;
               trace := tr; response := resp;
               globals_after := p' |} :: log)
  end.

(** A body that is a JSON object without the [question] key. *)
Definition missing_question (payload : option json) : Prop :=
  exists fields, payload = Some (JObject fields) /\ fields !! "question" = None.

(** A served request that reached the [/ask] handler. *)
Definition reached_ask (s : served) : Prop :=
  exists payload req,
    request s = POST_ask payload /\ PermitRequest_validate payload = Some req.

End FrontDoor.

(** The response of the configuration-error branch, lines 54 to 56. *)
Definition config_error_response : http_response :=
  {| status := 500;
     body := JObject {[ "detail" := JString
       "Server misconfigured: OPENAI_API_KEY not set." ]} |}.

(** ** Sample data

    One framework, two processes and a few behaviours of the remote API, on
    which the handlers can be run. *)

(** pydantic version 2: only a JSON string is accepted for [str]. *)
Definition pydantic_v2 : Framework :=
  {| str_of_non_string := fun _ => None;
     validation_error_content := fun _ => JObject {[ "detail" := JArray [] ]} |}.

Definition configured : process := snd (module_init (Some "sk-test")).

Definition unconfigured : process := snd (module_init None).

Definition sample_client : OpenAI := {| api_key := "sk-test" |}.

Definition deck_question : string := "Do I need a permit for a deck?".

Definition deck_payload : option json :=
  Some (JObject {[ "question" := JString deck_question ]}).

(** A completion of the expected shape, its text padded with whitespace. *)
Definition completion_ok : pyval :=
  VObj "ChatCompletion(id='c1', choices=[...])"
    {[ "choices" :=
         VSeq "[Choice(...)]"
           [ VObj "Choice(...)"
               {[ "message" :=
                    VObj "ChatCompletionMessage(...)"
                      {[ "content" := VStr "  Usually yes; check with the local building department. " ]} ]} ] ]}.

(** A completion without choices. *)
Definition completion_no_choices : pyval :=
  VObj "ChatCompletion(id='c2', choices=[])" {[ "choices" := VSeq "[]" [] ]}.

(** The SDK handing back the raw response text instead of an object. *)
Definition completion_raw_text : pyval := VStr " upstream maintenance page ".

Definition upstream_returns (completion : pyval) : upstream :=
  fun _ _ => Ok completion.

Definition upstream_raises (e : py_exception) : upstream :=
  fun _ _ => Raise e.

Definition rate_limit_error : py_exception :=
  {| type_name := "RateLimitError"; message := "Error code: 429" |}.

(** A morning of traffic: a question, a probe, a question while the remote
    API refuses, a visit to the root page. *)
Definition sample_traffic : list (http_request * upstream) :=
  [ (POST_ask deck_payload, upstream_returns completion_ok);
    (GET_health, upstream_returns completion_ok);
    (POST_ask deck_payload, upstream_raises rate_limit_error);
    (GET_root, upstream_returns completion_ok) ].

(** What the log of [sample_traffic] holds for its two questions when the
    process started without key. *)
Definition refused_ask : served :=
  {| globals_before := unconfigured;
     request := POST_ask deck_payload;
     trace := [LogError "OpenAI client not initialized because OPENAI_API_KEY is missing."];
     response := config_error_response;
     globals_after := unconfigured |}.


(** A completion whose first choice is three spaces. *)
Definition completion_blank : pyval :=
  VObj "ChatCompletion(id='c4', choices=[...])"
    {[ "choices" :=
         VSeq "[Choice(...)]"
           [ VObj "Choice(...)"
               {[ "message" :=
                    VObj "ChatCompletionMessage(...)"
                      {[ "content" := VStr "   " ]} ]} ] ]}.

(** The variable as the sample processes read it. *)
Definition getenv_sample : option string := Some "sk-test".


(** A remote API that serves the sample key and refuses every other. *)
Definition upstream_for_sample_key : upstream :=
  fun cl _ =>
    if String.eqb (api_key cl) "sk-test" then Ok completion_ok
    else Raise rate_limit_error.


(** ** Observations on strings, traces and runs *)

(** Every character of the string is whitespace. *)
Fixpoint all_space (s : string) : bool :=
  match s with
  | EmptyString => true
  | String c s' => PyStr.isspace c && all_space s'
  end.

(** The messages logged in a trace, in order. *)
Fixpoint log_entries (tr : list event) : list string :=
  match tr with
  | [] => []
  | LogError msg :: tr' => msg :: log_entries tr'
  | LogException msg :: tr' => msg :: log_entries tr'
  | ChatCompletionsCreate _ _ :: tr' => log_entries tr'
  end.

(** The request a piece of traffic hands to the [/ask] handler, if any. *)
Definition asked `{fw : Framework} (rq : http_request * upstream)
  : option PermitRequest :=
  match fst rq with
  | POST_ask payload => PermitRequest_validate payload
  | _ => None
  end.

(** All the events of a run, in order. *)
Definition run_trace (log : list served) : list event := flat_map trace log.

(** * Properties *)

(** ** Trimming *)

Module PyStrFacts.
Import PyStr.

Lemma lstrip_head (s : string) (c : ascii) :
  head (lstrip s) = Some c -> isspace c = false.
Proof.
  induction s as [|a s IH]; simpl; [discriminate|].
  destruct (isspace a) eqn:Ha; [exact IH|].
  simpl. intros [= <-]. exact Ha.
Qed.

Lemma rstrip_last (s : string) (c : ascii) :
  last (rstrip s) = Some c -> isspace c = false.
Proof.
  induction s as [|a s IH]; simpl; [discriminate|].
  destruct (rstrip s) as [|b r] eqn:Hr.
  - destruct (isspace a) eqn:Ha; simpl; [discriminate|].
    intros [= <-]. exact Ha.
  - exact IH.
Qed.

(** [rstrip] removes nothing at the front of what it keeps. *)
Lemma rstrip_head (s : string) (c : ascii) :
  head (rstrip s) = Some c -> head s = Some c.
Proof.
  destruct s as [|a s]; simpl; [discriminate|].
  destruct (rstrip s); [destruct (isspace a)|]; simpl; congruence.
Qed.

Lemma strip_trimmed (s : string) : trimmed (strip s).
Proof.
  split; intros c Hc.
  - apply (lstrip_head s). now apply rstrip_head.
  - now apply (rstrip_last (lstrip s)).
Qed.

(** A string that ends in a non-space character loses nothing to [rstrip]. *)
Lemma rstrip_fixed (s : string) :
  (forall c, last s = Some c -> isspace c = false) -> rstrip s = s.
Proof.
  induction s as [|a s IH]; intros Hl; [reflexivity|].
  simpl. destruct s as [|b s'].
  - simpl. now rewrite (Hl a eq_refl).
  - rewrite IH by (intros c Hc; apply Hl; exact Hc).
    reflexivity.
Qed.

Lemma strip_fixed (s : string) : trimmed s -> strip s = s.
Proof.
  intros [Hh Hl]. unfold strip.
  assert (lstrip s = s) as ->.
  { destruct s as [|a s]; [reflexivity|]. simpl. now rewrite (Hh a eq_refl). }
  now apply rstrip_fixed.
Qed.

Lemma strip_idempotent (s : string) : strip (strip s) = strip s.
Proof. apply strip_fixed, strip_trimmed. Qed.

End PyStrFacts.

(** ** What one run of the handler does *)

Section Handler.
Context `{fw : Framework}.

(** The three ways the handler ends once a client exists. *)
Lemma ask_configured (p : process) (cl : OpenAI) (req : PermitRequest) (up : upstream) :
  client p = Some cl ->
  ask p req up =
    match up cl (create_args req) with
    | Ok completion =>
        match extract_choice_text completion with
        | Ok t =>
            ([ChatCompletionsCreate cl (create_args req)],
             Ok (JObject {[ "answer" := JString t ]}))
        | Raise _ =>
            ([ChatCompletionsCreate cl (create_args req);
              LogException "Couldn't extract choice text from OpenAI response."],
             Ok (JObject {[ "answer" := JString (Py.str completion) ]}))
        end
    | Raise e =>
        ([ChatCompletionsCreate cl (create_args req);
          LogException "Error while calling OpenAI API"],
         Raise {| status_code := 500;
                  detail := "AI error: " +:+ type_name e +:+ ": " +:+ message e |})
    end.
Proof.
  intros Hcl. unfold ask. rewrite Hcl.
  unfold try_except, bind, chat_completions_create, lift, ret, raise,
    logger_exception.
  destruct (up cl (create_args req)) as [completion|e]; [|reflexivity].
  destruct (extract_choice_text completion); reflexivity.
Qed.

Lemma ask_unconfigured (p : process) (req : PermitRequest) (up : upstream) :
  client p = None ->
  ask p req up =
    ([LogError "OpenAI client not initialized because OPENAI_API_KEY is missing."],
     Raise {| status_code := 500;
              detail := "Server misconfigured: OPENAI_API_KEY not set." |}).
Proof. intros Hcl. unfold ask. now rewrite Hcl. Qed.

(** The handler calls the API once when a client exists, and never
    otherwise. *)
Lemma ask_outbound_calls (p : process) (req : PermitRequest) (up : upstream) :
  outbound_calls (fst (ask p req up)) =
    match client p with
    | Some _ => [create_args req]
    | None => []
    end.
Proof.
  destruct (client p) as [cl|] eqn:Hcl.
  - rewrite (ask_configured p cl req up Hcl).
    destruct (up cl (create_args req)) as [completion|e]; [|reflexivity].
    destruct (extract_choice_text completion); reflexivity.
  - now rewrite ask_unconfigured.
Qed.

Lemma post_ask_valid (p : process) (payload : option json) (req : PermitRequest)
    (up : upstream) :
  PermitRequest_validate payload = Some req ->
  post_ask p payload up = (fst (ask p req up), respond (snd (ask p req up))).
Proof.
  intros Hv. unfold post_ask. rewrite Hv. now destruct (ask p req up).
Qed.

(** A string in the [question] field is taken as it is. *)
Lemma validate_string_question (fields : gmap string json) (q : string) :
  fields !! "question" = Some (JString q) ->
  PermitRequest_validate (Some (JObject fields)) = Some {| question := q |}.
Proof. intros Hq. unfold PermitRequest_validate. now rewrite Hq. Qed.

Lemma validate_missing_question (fields : gmap string json) :
  fields !! "question" = None ->
  PermitRequest_validate (Some (JObject fields)) = None.
Proof. intros Hq. unfold PermitRequest_validate. now rewrite Hq. Qed.

End Handler.

(** The client exists exactly when the variable was set to a non-empty
    string. *)
Lemma module_init_client_None (getenv : option string) :
  client (snd (module_init getenv)) = None <->
  getenv = None \/ getenv = Some EmptyString.
Proof.
  destruct getenv as [[|c k]|]; simpl; split;
    try tauto; try discriminate.
  intros [Hg|Hg]; discriminate.
Qed.

(** ** The contract of [POST /ask] *)

(** C1: for a request [{"question": q}], when a client exists, the completion
    call returns and the first choice's content is the text [t], the response
    is status 200 with body [{"answer": t.strip()}], after exactly one
    outbound call; the answer has no whitespace at either end.  The question
    need not be non-empty for this. *)
Theorem ask_answers_trimmed_choice_text `{fw : Framework}
    (p : process) (cl : OpenAI) (up : upstream) (q t : string)
    (completion : pyval) :
  client p = Some cl ->
  up cl (create_args {| question := q |}) = Ok completion ->
  first_choice_content completion = Ok (VStr t) ->
  post_ask p (Some (JObject {[ "question" := JString q ]})) up =
    ([ChatCompletionsCreate cl (create_args {| question := q |})],
     {| status := 200;
        body := JObject {[ "answer" := JString (PyStr.strip t) ]} |})
  /\ PyStr.trimmed (PyStr.strip t).
Proof.
  intros Hcl Hup Hfc. split; [|apply PyStrFacts.strip_trimmed].
  rewrite (post_ask_valid p _ {| question := q |})
    by (apply validate_string_question, lookup_singleton_eq).
  rewrite (ask_configured p cl) by exact Hcl.
  rewrite Hup. unfold extract_choice_text. rewrite Hfc. reflexivity.
Qed.

Lemma ask_answers_trimmed_choice_text_witness :
  post_ask (fw := pydantic_v2) configured deck_payload
    (upstream_returns completion_ok) =
    ([ChatCompletionsCreate sample_client
        (create_args {| question := deck_question |})],
     {| status := 200;
        body := JObject {[ "answer" := JString
          "Usually yes; check with the local building department." ]} |})
  /\ PyStr.trimmed "Usually yes; check with the local building department.".
Proof.
  apply (ask_answers_trimmed_choice_text (fw := pydantic_v2) configured
           sample_client (upstream_returns completion_ok) deck_question
           "  Usually yes; check with the local building department. "
           completion_ok); reflexivity.
Defined.

(** C2: when the key was absent (or empty) at start-up there is no client,
    and every request that reaches the handler is answered with status 500
    and the detail "Server misconfigured: OPENAI_API_KEY not set.", whatever
    the question; the trace holds the one log entry and no outbound call. *)
Theorem ask_without_key_is_misconfigured `{fw : Framework}
    (getenv : option string) (payload : option json) (req : PermitRequest)
    (up : upstream) :
  getenv = None \/ getenv = Some EmptyString ->
  PermitRequest_validate payload = Some req ->
  client (snd (module_init getenv)) = None
  /\ post_ask (snd (module_init getenv)) payload up =
       ([LogError "OpenAI client not initialized because OPENAI_API_KEY is missing."],
        {| status := 500;
           body := JObject {[ "detail" := JString
             "Server misconfigured: OPENAI_API_KEY not set." ]} |})
  /\ outbound_calls (fst (post_ask (snd (module_init getenv)) payload up)) = [].
Proof.
  intros Henv Hv.
  assert (client (snd (module_init getenv)) = None) as Hcl
    by now apply module_init_client_None.
  split; [exact Hcl|].
  rewrite (post_ask_valid _ payload req up Hv).
  rewrite ask_unconfigured by exact Hcl.
  split; reflexivity.
Qed.

Lemma ask_without_key_is_misconfigured_witness :
  client unconfigured = None
  /\ post_ask (fw := pydantic_v2) unconfigured deck_payload
       (upstream_returns completion_ok) =
       ([LogError "OpenAI client not initialized because OPENAI_API_KEY is missing."],
        {| status := 500;
           body := JObject {[ "detail" := JString
             "Server misconfigured: OPENAI_API_KEY not set." ]} |})
  /\ outbound_calls
       (fst (post_ask (fw := pydantic_v2) unconfigured deck_payload
               (upstream_returns completion_ok))) = [].
Proof.
  apply (ask_without_key_is_misconfigured (fw := pydantic_v2) None
           deck_payload {| question := deck_question |}
           (upstream_returns completion_ok)).
  - left. reflexivity.
  - reflexivity.
Defined.

(** C3: when a client exists and the completion call raises [e], the response
    is status 500 and its detail is exactly
    "AI error: <type(e).__name__>: <str(e)>"; the traceback only goes to the
    log. *)
Theorem ask_upstream_exception_is_ai_error `{fw : Framework}
    (p : process) (cl : OpenAI) (payload : option json) (req : PermitRequest)
    (up : upstream) (e : py_exception) :
  client p = Some cl ->
  PermitRequest_validate payload = Some req ->
  up cl (create_args req) = Raise e ->
  post_ask p payload up =
    ([ChatCompletionsCreate cl (create_args req);
      LogException "Error while calling OpenAI API"],
     {| status := 500;
        body := JObject {[ "detail" := JString
          ("AI error: " +:+ type_name e +:+ ": " +:+ message e) ]} |}).
Proof.
  intros Hcl Hv Hup.
  rewrite (post_ask_valid p payload req up Hv).
  rewrite (ask_configured p cl req up Hcl), Hup. reflexivity.
Qed.

Lemma ask_upstream_exception_is_ai_error_witness :
  post_ask (fw := pydantic_v2) configured deck_payload
    (upstream_raises rate_limit_error) =
    ([ChatCompletionsCreate sample_client
        (create_args {| question := deck_question |});
      LogException "Error while calling OpenAI API"],
     {| status := 500;
        body := JObject {[ "detail" := JString
          "AI error: RateLimitError: Error code: 429" ]} |}).
Proof.
  apply (ask_upstream_exception_is_ai_error (fw := pydantic_v2) configured
           sample_client deck_payload {| question := deck_question |}
           (upstream_raises rate_limit_error) rate_limit_error);
    reflexivity.
Defined.

(** C4: when the completion call returns but the first choice's text cannot
    be extracted, the request does not fail: the response is status 200 and
    the answer is [str(completion)]. *)
Theorem ask_extraction_failure_degrades `{fw : Framework}
    (p : process) (cl : OpenAI) (payload : option json) (req : PermitRequest)
    (up : upstream) (completion : pyval) (err : builtin_error) :
  client p = Some cl ->
  PermitRequest_validate payload = Some req ->
  up cl (create_args req) = Ok completion ->
  extract_choice_text completion = Raise err ->
  post_ask p payload up =
    ([ChatCompletionsCreate cl (create_args req);
      LogException "Couldn't extract choice text from OpenAI response."],
     {| status := 200;
        body := JObject {[ "answer" := JString (Py.str completion) ]} |}).
Proof.
  intros Hcl Hv Hup Hex.
  rewrite (post_ask_valid p payload req up Hv).
  rewrite (ask_configured p cl req up Hcl), Hup, Hex. reflexivity.
Qed.

Lemma ask_extraction_failure_degrades_witness :
  post_ask (fw := pydantic_v2) configured deck_payload
    (upstream_returns completion_no_choices) =
    ([ChatCompletionsCreate sample_client
        (create_args {| question := deck_question |});
      LogException "Couldn't extract choice text from OpenAI response."],
     {| status := 200;
        body := JObject {[ "answer" := JString
          "ChatCompletion(id='c2', choices=[])" ]} |}).
Proof.
  apply (ask_extraction_failure_degrades (fw := pydantic_v2) configured
           sample_client deck_payload {| question := deck_question |}
           (upstream_returns completion_no_choices) completion_no_choices
           IndexError); reflexivity.
Defined.

(** C5: for a request whose [question] is the string [q], the prompt of every
    outbound call is the two messages, in this order: the fixed system
    instruction, then a user message whose content is [q] unchanged.  A
    configured process makes exactly one such call, an unconfigured one
    none. *)
Theorem ask_prompt_is_system_then_question `{fw : Framework}
    (p : process) (fields : gmap string json) (q : string) (up : upstream) :
  fields !! "question" = Some (JString q) ->
  outbound_calls (fst (post_ask p (Some (JObject fields)) up)) =
    match client p with
    | Some _ => [create_args {| question := q |}]
    | None => []
    end
  /\ messages (create_args {| question := q |}) =
       [ {| role := "system";
            content := "You are a helpful permitting assistant. Answer clearly and concisely in plain text. If you're unsure, advise checking with the local building department." |};
         {| role := "user"; content := q |} ].
Proof.
  intros Hq. split; [|reflexivity].
  rewrite (post_ask_valid p _ {| question := q |})
    by now apply validate_string_question.
  apply ask_outbound_calls.
Qed.

Lemma ask_prompt_is_system_then_question_witness :
  outbound_calls
    (fst (post_ask (fw := pydantic_v2) configured deck_payload
            (upstream_returns completion_ok))) =
    [create_args {| question := deck_question |}]
  /\ messages (create_args {| question := deck_question |}) =
       [ {| role := "system";
            content := "You are a helpful permitting assistant. Answer clearly and concisely in plain text. If you're unsure, advise checking with the local building department." |};
         {| role := "user"; content := "Do I need a permit for a deck?" |} ].
Proof.
  apply (ask_prompt_is_system_then_question (fw := pydantic_v2) configured
           {[ "question" := JString deck_question ]} deck_question
           (upstream_returns completion_ok)).
  reflexivity.
Defined.

(** C6: every outbound call made for [POST /ask], whatever the body, the
    process and the remote behaviour, has model "gpt-4o-mini", temperature
    0.2 and max_tokens 800. *)
Theorem ask_call_parameters_fixed `{fw : Framework}
    (p : process) (payload : option json) (up : upstream) (args : CreateArgs) :
  In args (outbound_calls (fst (post_ask p payload up))) ->
  model args = "gpt-4o-mini"
  /\ temperature args = 0.2%float
  /\ max_tokens args = 800.
Proof.
  unfold post_ask.
  destruct (PermitRequest_validate payload) as [req|]; [|intros []].
  pose proof (ask_outbound_calls p req up) as Hcalls.
  destruct (ask p req up) as [tr r]. simpl in *. rewrite Hcalls.
  destruct (client p); [|intros []].
  intros [<-|[]]. repeat split.
Qed.

Lemma ask_call_parameters_fixed_witness :
  model (create_args {| question := deck_question |}) = "gpt-4o-mini"
  /\ temperature (create_args {| question := deck_question |}) = 0.2%float
  /\ max_tokens (create_args {| question := deck_question |}) = 800.
Proof.
  apply (ask_call_parameters_fixed (fw := pydantic_v2) configured deck_payload
           (upstream_raises rate_limit_error)
           (create_args {| question := deck_question |})).
  left. reflexivity.
Defined.

(** C7: a body without the [question] field, and any other body that does not
    validate against [PermitRequest], is answered by the framework with
    status 422, a 4xx; the handler does not run, so the trace is empty and no
    outbound call is made, whatever the process and the remote behaviour. *)
Theorem post_ask_invalid_body_rejected `{fw : Framework}
    (p : process) (payload : option json) (up : upstream) :
  missing_question payload \/ PermitRequest_validate payload = None ->
  post_ask p payload up =
    ([], {| status := 422; body := validation_error_content payload |})
  /\ 400 <= status (snd (post_ask p payload up)) < 500
  /\ outbound_calls (fst (post_ask p payload up)) = [].
Proof.
  intros Hbad.
  assert (PermitRequest_validate payload = None) as Hv.
  { destruct Hbad as [(fields & -> & Hq)|Hv]; [|exact Hv].
    now apply validate_missing_question. }
  unfold post_ask. rewrite Hv. simpl. repeat split; lia.
Qed.

Lemma post_ask_invalid_body_rejected_witness :
  post_ask (fw := pydantic_v2) configured
    (Some (JObject {[ "prompt" := JString deck_question ]}))
    (upstream_returns completion_ok) =
    ([], {| status := 422; body := JObject {[ "detail" := JArray [] ]} |})
  /\ 400 <= status (snd (post_ask (fw := pydantic_v2) configured
                           (Some (JObject {[ "prompt" := JString deck_question ]}))
                           (upstream_returns completion_ok))) < 500
  /\ outbound_calls
       (fst (post_ask (fw := pydantic_v2) configured
               (Some (JObject {[ "prompt" := JString deck_question ]}))
               (upstream_returns completion_ok))) = [].
Proof.
  apply (post_ask_invalid_body_rejected (fw := pydantic_v2) configured
           (Some (JObject {[ "prompt" := JString deck_question ]}))
           (upstream_returns completion_ok)).
  left. exists {[ "prompt" := JString deck_question ]}.
  split; reflexivity.
Defined.

(** C8: a body whose [question] field is a string validates, to a request
    carrying that very string, the empty one included; with a client the
    handler then calls the API with it as the user message. *)
Theorem post_ask_accepts_any_string_question `{fw : Framework}
    (p : process) (cl : OpenAI) (fields : gmap string json) (q : string)
    (up : upstream) :
  fields !! "question" = Some (JString q) ->
  client p = Some cl ->
  PermitRequest_validate (Some (JObject fields)) = Some {| question := q |}
  /\ (exists tr, fst (post_ask p (Some (JObject fields)) up) =
        ChatCompletionsCreate cl (create_args {| question := q |}) :: tr)
  /\ messages (create_args {| question := q |}) !! 1%nat =
       Some {| role := "user"; content := q |}.
Proof.
  intros Hq Hcl.
  pose proof (validate_string_question fields q Hq) as Hv.
  split; [exact Hv|]. split; [|reflexivity].
  rewrite (post_ask_valid p _ _ up Hv), (ask_configured p cl _ up Hcl).
  destruct (up cl (create_args {| question := q |})) as [completion|e];
    [destruct (extract_choice_text completion)|]; simpl; eauto.
Qed.

Lemma post_ask_accepts_any_string_question_witness :
  PermitRequest_validate (fw := pydantic_v2)
    (Some (JObject {[ "question" := JString EmptyString ]})) =
    Some {| question := EmptyString |}
  /\ (exists tr,
        fst (post_ask (fw := pydantic_v2) configured
               (Some (JObject {[ "question" := JString EmptyString ]}))
               (upstream_returns completion_ok)) =
        ChatCompletionsCreate sample_client
          (create_args {| question := EmptyString |}) :: tr)
  /\ messages (create_args {| question := EmptyString |}) !! 1%nat =
       Some {| role := "user"; content := EmptyString |}.
Proof.
  apply (post_ask_accepts_any_string_question (fw := pydantic_v2) configured
           sample_client {[ "question" := JString EmptyString ]} EmptyString
           (upstream_returns completion_ok)); reflexivity.
Defined.

(** ** The globals over the life of a process *)

Section Process.
Context `{fw : Framework}.

Lemma app_globals (p : process) (rq : http_request) (up : upstream) :
  fst (app p rq up) = p.
Proof. now destruct rq. Qed.

Lemma serve_globals (p : process) (rqs : list (http_request * upstream)) :
  fst (serve p rqs) = p.
Proof.
  revert p. induction rqs as [|[rq up] rqs IH]; intros p; [reflexivity|].
  simpl. pose proof (app_globals p rq up) as Happ.
  destruct (app p rq up) as [p' [tr resp]]. simpl in Happ. subst p'.
  specialize (IH p). destruct (serve p rqs) as [p'' log]. exact IH.
Qed.

(** Every entry of the log was produced by [app] from the initial globals. *)
Lemma serve_entry (p : process) (rqs : list (http_request * upstream))
    (s : served) :
  In s (snd (serve p rqs)) ->
  globals_before s = p /\ globals_after s = p
  /\ exists up, (trace s, response s) = snd (app p (request s) up).
Proof.
  revert p. induction rqs as [|[rq up] rqs IH]; intros p; [intros []|].
  simpl. pose proof (app_globals p rq up) as Happ.
  destruct (app p rq up) as [p' [tr resp]] eqn:Hrun. simpl in Happ. subst p'.
  specialize (IH p). destruct (serve p rqs) as [p'' log]. simpl in *.
  intros [<-|Hin]; [|now apply IH].
  simpl. repeat split. exists up. now rewrite Hrun.
Qed.

(** Among the responses to a valid body, the configuration error is the one
    of a process without client. *)
Lemma post_ask_config_error_iff (p : process) (payload : option json)
    (req : PermitRequest) (up : upstream) :
  PermitRequest_validate payload = Some req ->
  snd (post_ask p payload up) = config_error_response <-> client p = None.
Proof.
  intros Hv. rewrite (post_ask_valid p payload req up Hv). simpl.
  destruct (client p) as [cl|] eqn:Hcl.
  - rewrite (ask_configured p cl req up Hcl). split; [|discriminate].
    destruct (up cl (create_args req)) as [completion|e].
    + destruct (extract_choice_text completion); simpl; intros Heq;
        apply (f_equal status) in Heq; discriminate.
    + intros Heq. exfalso.
      apply (f_equal (fun r => json_field (body r) "detail")) in Heq.
      unfold config_error_response, respond in Heq.
      cbn [body json_field] in Heq.
      rewrite !lookup_singleton_eq in Heq. discriminate.
  - rewrite (ask_unconfigured p req up Hcl). split; reflexivity.
Qed.

End Process.

(** C9: the client handle is set by the module's start-up code and by nothing
    else: every handler (root, health, ask) leaves the globals as it found
    them, so all requests of one process see the globals of start-up, and any
    two requests that reach the [/ask] handler agree on whether they get the
    configuration error, which happens exactly when start-up made no
    client. *)
Theorem client_handle_fixed_after_startup `{fw : Framework}
    (getenv : option string) (rqs : list (http_request * upstream))
    (s1 s2 : served) :
  In s1 (snd (serve (snd (module_init getenv)) rqs)) ->
  In s2 (snd (serve (snd (module_init getenv)) rqs)) ->
  fst (serve (snd (module_init getenv)) rqs) = snd (module_init getenv)
  /\ globals_before s1 = snd (module_init getenv)
  /\ globals_after s1 = snd (module_init getenv)
  /\ client (globals_before s1) = client (globals_before s2)
  /\ (reached_ask s1 ->
      (response s1 = config_error_response <->
       client (snd (module_init getenv)) = None))
  /\ (reached_ask s1 -> reached_ask s2 ->
      (response s1 = config_error_response <->
       response s2 = config_error_response)).
Proof.
  intros Hin1 Hin2.
  set (p0 := snd (module_init getenv)) in *.
  assert (forall s, In s (snd (serve p0 rqs)) -> reached_ask s ->
            (response s = config_error_response <-> client p0 = None)) as Hbranch.
  { intros s Hin (payload & req & Hrq & Hv).
    destruct (serve_entry p0 rqs s Hin) as (_ & _ & up & Hrun).
    rewrite Hrq in Hrun. simpl in Hrun.
    rewrite <- (post_ask_config_error_iff p0 payload req up Hv).
    now rewrite <- Hrun. }
  destruct (serve_entry p0 rqs s1 Hin1) as (Hb1 & Ha1 & _).
  destruct (serve_entry p0 rqs s2 Hin2) as (Hb2 & _ & _).
  split; [apply serve_globals|].
  split; [exact Hb1|]. split; [exact Ha1|].
  split; [now rewrite Hb1, Hb2|].
  split; [now apply Hbranch|].
  intros Hr1 Hr2.
  rewrite (Hbranch s1 Hin1 Hr1), (Hbranch s2 Hin2 Hr2). reflexivity.
Qed.

Lemma client_handle_fixed_after_startup_witness :
  fst (serve (fw := pydantic_v2) unconfigured sample_traffic) = unconfigured
  /\ globals_before refused_ask = unconfigured
  /\ globals_after refused_ask = unconfigured
  /\ (response refused_ask = config_error_response <->
      client unconfigured = None).
Proof.
  assert (In refused_ask
            (snd (serve (fw := pydantic_v2) unconfigured sample_traffic)))
    as Hin by (left; reflexivity).
  assert (reached_ask (fw := pydantic_v2) refused_ask) as Hreached
    by (exists deck_payload, {| question := deck_question |};
        split; reflexivity).
  destruct (client_handle_fixed_after_startup (fw := pydantic_v2) None
              sample_traffic refused_ask refused_ask Hin Hin)
    as (Hend & Hbefore & Hafter & _ & Hbranch & _).
  repeat split; try assumption; now apply Hbranch.
Defined.

(** C10: on the degraded path the answer is [str(completion)] character for
    character: [.strip()] is part of the extraction that failed and is not
    applied to the fallback, so when the stringified completion has
    whitespace at an end, so has the answer. *)
Theorem ask_fallback_answer_is_not_stripped `{fw : Framework}
    (p : process) (cl : OpenAI) (payload : option json) (req : PermitRequest)
    (up : upstream) (completion : pyval) (err : builtin_error) :
  client p = Some cl ->
  PermitRequest_validate payload = Some req ->
  up cl (create_args req) = Ok completion ->
  extract_choice_text completion = Raise err ->
  ~ PyStr.trimmed (Py.str completion) ->
  exists answer,
    snd (post_ask p payload up) =
      {| status := 200; body := JObject {[ "answer" := JString answer ]} |}
    /\ answer = Py.str completion
    /\ answer <> PyStr.strip answer
    /\ ~ PyStr.trimmed answer.
Proof.
  intros Hcl Hv Hup Hex Hws. exists (Py.str completion).
  rewrite (post_ask_valid p payload req up Hv).
  rewrite (ask_configured p cl req up Hcl), Hup, Hex.
  repeat split; [|exact Hws].
  intros Heq. apply Hws. rewrite Heq. apply PyStrFacts.strip_trimmed.
Qed.

Lemma ask_fallback_answer_is_not_stripped_witness :
  exists answer,
    snd (post_ask (fw := pydantic_v2) configured deck_payload
           (upstream_returns completion_raw_text)) =
      {| status := 200; body := JObject {[ "answer" := JString answer ]} |}
    /\ answer = " upstream maintenance page "
    /\ answer <> PyStr.strip answer
    /\ ~ PyStr.trimmed answer.
Proof.
  apply (ask_fallback_answer_is_not_stripped (fw := pydantic_v2) configured
           sample_client deck_payload {| question := deck_question |}
           (upstream_returns completion_raw_text) completion_raw_text
           AttributeError); try reflexivity.
  intros [Hhead _]. specialize (Hhead " "%char eq_refl). discriminate.
Defined.

(** * Further properties of the code *)

(** ** What [.strip()] does to the choice text *)

Module StripFacts.
Import PyStr.

Lemma all_space_app (a b : string) :
  all_space (a +:+ b) = all_space a && all_space b.
Proof.
  induction a as [|c a IH]; simpl; [reflexivity|].
  rewrite IH. now destruct (isspace c).
Qed.

Lemma lstrip_split (s : string) :
  exists pre, s = pre +:+ lstrip s /\ all_space pre = true.
Proof.
  induction s as [|c s (pre & Hs & Hpre)]; [now exists EmptyString|].
  cbn [lstrip]. destruct (isspace c) eqn:Hc.
  - exists (String c pre). split.
    + transitivity (String c (pre +:+ lstrip s)); [now f_equal|reflexivity].
    + cbn [all_space]. now rewrite Hc.
  - now exists EmptyString.
Qed.

Lemma rstrip_split (s : string) :
  exists post, s = rstrip s +:+ post /\ all_space post = true.
Proof.
  induction s as [|c s (post & Hs & Hpost)]; [now exists EmptyString|].
  cbn [rstrip]. destruct (rstrip s) as [|b r] eqn:Hr.
  - change (EmptyString +:+ post) with post in Hs. subst post.
    destruct (isspace c) eqn:Hc.
    + exists (String c s). split; [reflexivity|].
      cbn [all_space]. now rewrite Hc.
    + now exists s.
  - exists post. split; [|exact Hpost].
    transitivity (String c (String b r +:+ post)); [now f_equal|reflexivity].
Qed.

Lemma lstrip_all_space (s : string) :
  all_space s = true -> lstrip s = EmptyString.
Proof.
  induction s as [|c s IH]; simpl; [reflexivity|].
  destruct (isspace c); [exact IH|discriminate].
Qed.

End StripFacts.

(** [strip] removes whitespace from the two ends and nothing else: the text
    is a whitespace prefix, then the stripped text, then a whitespace
    suffix. *)
Lemma strip_split (t : string) :
  exists pre post,
    t = pre +:+ PyStr.strip t +:+ post
    /\ all_space pre = true /\ all_space post = true.
Proof.
  destruct (StripFacts.lstrip_split t) as (pre & Ht & Hpre).
  destruct (StripFacts.rstrip_split (PyStr.lstrip t)) as (post & Hl & Hpost).
  exists pre, post. unfold PyStr.strip.
  now rewrite <- Hl, <- Ht.
Qed.

(** The stripped text is empty exactly when the text is made of whitespace
    only (the empty text included). *)
Lemma strip_empty_iff_all_space (t : string) :
  PyStr.strip t = EmptyString <-> all_space t = true.
Proof.
  split.
  - intros He.
    destruct (strip_split t) as (pre & post & Ht & Hpre & Hpost).
    rewrite He in Ht. rewrite Ht, !StripFacts.all_space_app, Hpre, Hpost.
    reflexivity.
  - intros Ha. unfold PyStr.strip.
    now rewrite StripFacts.lstrip_all_space.
Qed.



(** ** More on the answers of [POST /ask] *)

(** X2: on the success path nothing but surrounding whitespace is lost: the
    choice text is a whitespace prefix, then the returned answer, then a
    whitespace suffix. *)
Theorem ask_answer_differs_by_surrounding_whitespace `{fw : Framework}
    (p : process) (cl : OpenAI) (payload : option json) (req : PermitRequest)
    (up : upstream) (completion : pyval) (t : string) :
  client p = Some cl ->
  PermitRequest_validate payload = Some req ->
  up cl (create_args req) = Ok completion ->
  first_choice_content completion = Ok (VStr t) ->
  exists answer pre post,
    snd (post_ask p payload up) =
      {| status := 200; body := JObject {[ "answer" := JString answer ]} |}
    /\ t = pre +:+ answer +:+ post
    /\ all_space pre = true /\ all_space post = true.
Proof.
  intros Hcl Hv Hup Hfc.
  destruct (strip_split t) as (pre & post & Ht & Hpre & Hpost).
  exists (PyStr.strip t), pre, post.
  rewrite (post_ask_valid p payload req up Hv).
  rewrite (ask_configured p cl req up Hcl), Hup.
  unfold extract_choice_text. rewrite Hfc. now repeat split.
Qed.

Lemma ask_answer_differs_by_surrounding_whitespace_witness :
  exists answer pre post,
    snd (post_ask (fw := pydantic_v2) configured deck_payload
           (upstream_returns completion_ok)) =
      {| status := 200; body := JObject {[ "answer" := JString answer ]} |}
    /\ "  Usually yes; check with the local building department. " =
       pre +:+ answer +:+ post
    /\ all_space pre = true /\ all_space post = true.
Proof.
  apply (ask_answer_differs_by_surrounding_whitespace (fw := pydantic_v2)
           configured sample_client deck_payload
           {| question := deck_question |} (upstream_returns completion_ok)
           completion_ok); reflexivity.
Defined.

(** X3: a first choice whose text is empty or whitespace only is not an
    error and does not take the fallback: the response is status 200 with the
    empty answer, and nothing is logged. *)
Theorem ask_blank_choice_text_gives_empty_answer `{fw : Framework}
    (p : process) (cl : OpenAI) (payload : option json) (req : PermitRequest)
    (up : upstream) (completion : pyval) (t : string) :
  client p = Some cl ->
  PermitRequest_validate payload = Some req ->
  up cl (create_args req) = Ok completion ->
  first_choice_content completion = Ok (VStr t) ->
  all_space t = true ->
  post_ask p payload up =
    ([ChatCompletionsCreate cl (create_args req)],
     {| status := 200;
        body := JObject {[ "answer" := JString EmptyString ]} |}).
Proof.
  intros Hcl Hv Hup Hfc Hblank.
  rewrite (post_ask_valid p payload req up Hv).
  rewrite (ask_configured p cl req up Hcl), Hup.
  unfold extract_choice_text. rewrite Hfc. cbn [and_then Py.call_strip].
  apply strip_empty_iff_all_space in Hblank. now rewrite Hblank.
Qed.

Lemma ask_blank_choice_text_gives_empty_answer_witness :
  post_ask (fw := pydantic_v2) configured deck_payload
    (upstream_returns completion_blank) =
    ([ChatCompletionsCreate sample_client
        (create_args {| question := deck_question |})],
     {| status := 200;
        body := JObject {[ "answer" := JString EmptyString ]} |}).
Proof.
  apply (ask_blank_choice_text_gives_empty_answer (fw := pydantic_v2)
           configured sample_client deck_payload
           {| question := deck_question |}
           (upstream_returns completion_blank) completion_blank "   ");
    reflexivity.
Defined.

(** X4: [POST /ask] answers with status 200 exactly when the body validates,
    a client exists and the completion call returns; whether the text could
    be extracted plays no part. *)
Theorem post_ask_status_200_iff `{fw : Framework}
    (p : process) (payload : option json) (up : upstream) :
  status (snd (post_ask p payload up)) = 200 <->
  exists req cl completion,
    PermitRequest_validate payload = Some req
    /\ client p = Some cl
    /\ up cl (create_args req) = Ok completion.
Proof.
  destruct (PermitRequest_validate payload) as [req|] eqn:Hv.
  - rewrite (post_ask_valid p payload req up Hv). cbn [snd].
    destruct (client p) as [cl|] eqn:Hcl.
    + rewrite (ask_configured p cl req up Hcl).
      destruct (up cl (create_args req)) as [c|e] eqn:Hup.
      * split; [intros _; eauto 10|].
        intros _. destruct (extract_choice_text c); reflexivity.
      * split; [discriminate|].
        intros (req' & cl' & c' & Hv' & Hcl' & Hup'). congruence.
    + rewrite (ask_unconfigured p req up Hcl).
      split; [discriminate|].
      intros (req' & cl' & c' & _ & Hcl' & _). discriminate.
  - unfold post_ask. rewrite Hv. cbn [snd status].
    split; [discriminate|].
    intros (req' & cl' & c' & Hv' & _). discriminate.
Qed.

Lemma post_ask_status_200_iff_witness :
  status (snd (post_ask (fw := pydantic_v2) configured deck_payload
                 (upstream_returns completion_no_choices))) = 200
  /\ status (snd (post_ask (fw := pydantic_v2) configured deck_payload
                    (upstream_raises rate_limit_error))) <> 200.
Proof.
  split.
  - apply (post_ask_status_200_iff (fw := pydantic_v2)).
    exists {| question := deck_question |}, sample_client,
      completion_no_choices.
    repeat split.
  - intros H200.
    apply (post_ask_status_200_iff (fw := pydantic_v2)) in H200
      as (req & cl & c & _ & _ & Hup).
    discriminate.
Defined.

(** X5: a body that validates is answered in one of two shapes only: status
    200 with an [answer] string, or status 500 with a [detail] string. *)
Theorem post_ask_valid_response_shape `{fw : Framework}
    (p : process) (payload : option json) (req : PermitRequest)
    (up : upstream) :
  PermitRequest_validate payload = Some req ->
  (exists a, snd (post_ask p payload up) =
     {| status := 200; body := JObject {[ "answer" := JString a ]} |})
  \/ (exists d, snd (post_ask p payload up) =
        {| status := 500; body := JObject {[ "detail" := JString d ]} |}).
Proof.
  intros Hv. rewrite (post_ask_valid p payload req up Hv). cbn [snd].
  destruct (client p) as [cl|] eqn:Hcl.
  - rewrite (ask_configured p cl req up Hcl).
    destruct (up cl (create_args req)) as [c|e].
    + destruct (extract_choice_text c); left; eauto.
    + right. eauto.
  - rewrite (ask_unconfigured p req up Hcl). right. eauto.
Qed.

Lemma post_ask_valid_response_shape_witness :
  (exists a, snd (post_ask (fw := pydantic_v2) unconfigured deck_payload
                    (upstream_returns completion_ok)) =
     {| status := 200; body := JObject {[ "answer" := JString a ]} |})
  \/ (exists d, snd (post_ask (fw := pydantic_v2) unconfigured deck_payload
                       (upstream_returns completion_ok)) =
        {| status := 500; body := JObject {[ "detail" := JString d ]} |}).
Proof.
  apply (post_ask_valid_response_shape (fw := pydantic_v2) unconfigured
           deck_payload {| question := deck_question |}
           (upstream_returns completion_ok)).
  reflexivity.
Defined.

(** ** Logging and outbound calls *)

Lemma outbound_calls_app (tr1 tr2 : list event) :
  outbound_calls (tr1 ++ tr2) = outbound_calls tr1 ++ outbound_calls tr2.
Proof.
  induction tr1 as [|ev tr1 IH]; [reflexivity|].
  destruct ev; simpl; now rewrite IH.
Qed.

(** The outbound calls of one request, through the front door. *)
Lemma app_outbound_calls `{fw : Framework}
    (p : process) (rq : http_request) (up : upstream) :
  outbound_calls (fst (snd (app p rq up))) =
    match asked (rq, up), client p with
    | Some req, Some _ => [create_args req]
    | _, _ => []
    end.
Proof.
  destruct rq as [| |payload]; [reflexivity..|].
  unfold asked. cbn [app fst snd].
  destruct (PermitRequest_validate payload) as [req|] eqn:Hv.
  - rewrite (post_ask_valid p payload req up Hv). cbn [fst].
    apply ask_outbound_calls.
  - unfold post_ask. now rewrite Hv.
Qed.

(** X6: over the life of a configured process the outbound calls are, in
    order, one call per request that reached the handler, with that request's
    question: nothing is cached, merged or retried, so the same question asked
    twice is sent twice.  An unconfigured process makes no call at all. *)
Theorem run_makes_one_call_per_asked_question `{fw : Framework}
    (p : process) (rqs : list (http_request * upstream)) :
  outbound_calls (run_trace (snd (serve p rqs))) =
    match client p with
    | Some _ => create_args <$> omap asked rqs
    | None => []
    end.
Proof.
  induction rqs as [|[rq up] rqs IH].
  - now destruct (client p).
  - cbn [serve].
    pose proof (app_globals p rq up) as Hglob.
    pose proof (app_outbound_calls p rq up) as Hcalls.
    destruct (app p rq up) as [p' [tr resp]]. cbn [fst snd] in Hglob, Hcalls.
    subst p'. destruct (serve p rqs) as [p'' log]. cbn [snd] in *.
    unfold run_trace in *. cbn [flat_map trace].
    rewrite outbound_calls_app, IH, Hcalls.
    destruct (client p); [|now destruct (asked (rq, up))].
    simpl. now destruct (asked (rq, up)).
Qed.

Lemma run_makes_one_call_per_asked_question_witness :
  outbound_calls
    (run_trace (snd (serve (fw := pydantic_v2) configured sample_traffic))) =
    [ create_args {| question := deck_question |};
      create_args {| question := deck_question |} ]
  /\ outbound_calls
       (run_trace (snd (serve (fw := pydantic_v2) unconfigured sample_traffic)))
     = [].
Proof.
  split.
  - apply (run_makes_one_call_per_asked_question (fw := pydantic_v2)
             configured sample_traffic).
  - apply (run_makes_one_call_per_asked_question (fw := pydantic_v2)
             unconfigured sample_traffic).
Defined.



(** X8: start-up never calls the API and keeps the variable as read; it logs
    exactly when it makes no client, and a client it makes carries the
    variable's value, which is then not empty. *)
Theorem module_init_logs_iff_no_client (getenv : option string) :
  OPENAI_API_KEY (snd (module_init getenv)) = getenv
  /\ outbound_calls (fst (module_init getenv)) = []
  /\ (log_entries (fst (module_init getenv)) = [] <->
      client (snd (module_init getenv)) <> None)
  /\ (forall cl, client (snd (module_init getenv)) = Some cl ->
        getenv = Some (api_key cl) /\ api_key cl <> EmptyString).
Proof.
  split; [now destruct getenv as [[|c k]|]|].
  split; [now destruct getenv as [[|c k]|]|].
  split.
  - destruct getenv as [[|c k]|]; cbn; split;
      congruence || discriminate || (intros _; discriminate).
  - intros cl. destruct getenv as [[|c k]|]; cbn; try discriminate.
    intros [= <-]. split; [reflexivity|discriminate].
Qed.

Lemma module_init_logs_iff_no_client_witness :
  getenv_sample = Some (api_key sample_client)
  /\ api_key sample_client <> EmptyString.
Proof.
  destruct (module_init_logs_iff_no_client getenv_sample)
    as (_ & _ & _ & Hcl).
  apply Hcl. reflexivity.
Defined.

(** ** The two GET routes *)



(** ** What the answer depends on *)



(** X11: the handler learns of the remote API through its one call only: two
    behaviours of the API that agree on the call this request makes, with the
    process's client, give the same trace and response. *)
Theorem post_ask_depends_on_its_one_call `{fw : Framework}
    (p : process) (payload : option json) (up1 up2 : upstream) :
  (forall req cl,
     PermitRequest_validate payload = Some req ->
     client p = Some cl ->
     up1 cl (create_args req) = up2 cl (create_args req)) ->
  post_ask p payload up1 = post_ask p payload up2.
Proof.
  intros Hagree. unfold post_ask.
  destruct (PermitRequest_validate payload) as [req|]; [|reflexivity].
  destruct (client p) as [cl|] eqn:Hcl.
  - rewrite !(ask_configured p cl req _ Hcl).
    now rewrite (Hagree req cl eq_refl eq_refl).
  - now rewrite !(ask_unconfigured p req _ Hcl).
Qed.

Lemma post_ask_depends_on_its_one_call_witness :
  post_ask (fw := pydantic_v2) configured deck_payload
    (upstream_returns completion_ok) =
  post_ask (fw := pydantic_v2) configured deck_payload upstream_for_sample_key.
Proof.
  apply (post_ask_depends_on_its_one_call (fw := pydantic_v2) configured
           deck_payload (upstream_returns completion_ok)
           upstream_for_sample_key).
  intros req cl _ [= <-]. reflexivity.
Defined.
